(** * The OAuth adaptor of iris (adaptors/oauth/oauth.go)

    A shallow embedding of the adaptor: the request context the handlers
    read and write, the provider registry of the wrapped goth library, the
    two routes that [boot] registers, and the properties of the
    authentication flow. *)

From stdpp Require Import gmap strings list fin_maps sorting.

Open Scope string_scope.

(** ** Errors and results

    Go's [error] is an interface value; [errors.New msg] builds one from its
    message, and a nil error is [None]. *)

Inductive error : Type :=
  | New (msg : string).

Definition Error (e : error) : string :=
  match e with New msg => msg end.

(** The two errors the adaptor itself creates (oauth.go:178 and oauth.go:203). *)
Definition errNoMatchingSession : error :=
  New "completeUserAuth error: could not find a matching session for this request".

Definition errMustSelectProvider : error :=
  New "getProviderName error: you must select a provider".

(** ** HTTP status codes used by the adaptor *)

Definition StatusUnauthorized : Z := 401.
Definition StatusNotFound : Z := 404.

(** ** goth.User

    The user record the provider library fills; [goth.User{}] is the value
    with every field empty. *)

Record User : Type := mkUser {
  UserProvider : string;
  Email : string;
  UserName : string;
  NickName : string;
  UserID : string;
  AccessToken : string
}.

Definition zeroUser : User := mkUser "" "" "" "" "" "".

(** ** Values held behind [interface{}]

    The context's value store and the session store hold [interface{}]
    values; the adaptor puts a [goth.User] in the first and the marshalled
    session, a string, in the second.  A key that is absent reads as nil. *)

Inductive Value : Type :=
  | VString (s : string)
  | VUser (u : User)
  | VInt (n : Z).

(** ** The request context

    What a handler can observe of an [*iris.Context], and what it leaves
    behind: the effects on the response and on the logger are recorded, in
    order, in [events]. *)

Inductive LogMode : Type := ProdMode | DevMode.

Inductive Event : Type :=
  | EvEmitError (status : Z)
  | EvRedirect (url : string)
  | EvLog (mode : LogMode) (msg : string).

Record Context : Type := mkContext {
  path : string;
  params : list (string * string);
  query : list (string * string);
  values : gmap string Value;
  session : gmap string Value;
  events : list Event
}.

(** First value bound to [key] in an ordered list of pairs, [""] if none:
    the behaviour of both [ctx.Param] and [url.Values.Get]. *)
Fixpoint get_first (key : string) (l : list (string * string)) : string :=
  match l with
  | [] => ""
  | (k, v) :: rest => if decide (k = key) then v else get_first key rest
  end.

Definition Param (ctx : Context) (key : string) : string :=
  get_first key (params ctx).

Definition URLParam (ctx : Context) (key : string) : string :=
  get_first key (query ctx).

Definition Path (ctx : Context) : string := path ctx.

Definition Get (ctx : Context) (key : string) : option Value :=
  values ctx !! key.

Definition Set_ (ctx : Context) (key : string) (v : Value) : Context :=
  mkContext (path ctx) (params ctx) (query ctx)
            (<[key := v]> (values ctx)) (session ctx) (events ctx).

Definition SessionGet (ctx : Context) (key : string) : option Value :=
  session ctx !! key.

(** [Session().GetString]: the stored value when it is a string, [""]
    otherwise. *)
Definition SessionGetString (ctx : Context) (key : string) : string :=
  match session ctx !! key with
  | Some (VString s) => s
  | _ => ""
  end.

Definition SessionSet (ctx : Context) (key : string) (v : Value) : Context :=
  mkContext (path ctx) (params ctx) (query ctx)
            (values ctx) (<[key := v]> (session ctx)) (events ctx).

Definition emit (ev : Event) (ctx : Context) : Context :=
  mkContext (path ctx) (params ctx) (query ctx)
            (values ctx) (session ctx) (events ctx ++ [ev]).

Definition EmitError (status : Z) (ctx : Context) : Context :=
  emit (EvEmitError status) ctx.

(** [ctx.NotFound()] emits the 404 error. *)
Definition NotFound (ctx : Context) : Context :=
  EmitError StatusNotFound ctx.

Definition Redirect (url : string) (ctx : Context) : Context :=
  emit (EvRedirect url) ctx.

Definition Log (mode : LogMode) (msg : string) (ctx : Context) : Context :=
  emit (EvLog mode msg) ctx.

(** ** Configuration (the fields oauth.go reads) *)

Record Config : Type := mkConfig {
  RequestPath : string;
  RequestPathParam : string;
  CallbackRelativePath : string;
  RouteName : string;
  ContextKey : string;
  Credentials : gmap string (string * string)
}.

(** SessionValueKey is the key used to access the session store. *)
Definition SessionValueKey : string := "auth.session".

(** ** GetProviderName (oauth.go:197-206) *)

Definition GetProviderName (cfg : Config) (ctx : Context) : string * option error :=
  let provider := Param ctx (RequestPathParam cfg) in
  let provider :=
    if decide (provider = "") then URLParam ctx (RequestPathParam cfg)
    else provider in
  if decide (provider = "") then (provider, Some errMustSelectProvider)
  else (provider, None).

(** [setState] and [GetState] (oauth.go:212-227). *)
Definition setState (ctx : Context) : string :=
  let state := URLParam ctx "state" in
  if decide (0 < String.length state)%nat then state else "state".

Definition GetState (ctx : Context) : string := URLParam ctx "state".

(** ** The wrapped provider library (goth)

    [goth.Provider] and [goth.Session] are interfaces of the library; the
    adaptor only calls them.  A Go call returning [(v, err)] is a pair whose
    second component is [None] for a nil error. *)

Record Provider (S : Type) : Type := mkProvider {
  Name : string;
  BeginAuth : string -> S * option error;
  UnmarshalSession : string -> S * option error;
  FetchUser : S -> User * option error
}.

Arguments mkProvider {S} _ _ _ _.
Arguments Name {S} _.
Arguments BeginAuth {S} _ _.
Arguments UnmarshalSession {S} _ _.
Arguments FetchUser {S} _ _.

(** The methods of [goth.Session], and the constructor the library offers
    for a provider from its name, client key, secret and callback URL.
    [Authorize] may update the session it is called on, so it hands the
    session back with its result. *)
Class Goth (S : Type) : Type := {
  SessGetAuthURL : S -> string * option error;
  Marshal : S -> string;
  Authorize : S -> Provider S -> list (string * string) -> S * (string * option error);
  newProvider : string -> string -> string -> string -> Provider S
}.

Module goth.

(** [goth.GetProvider]: the registered provider of that name, or the
    library's lookup error. *)
Definition noProviderError (name : string) : error :=
  New ("no provider for " ++ name ++ " exists").

Definition GetProvider {S : Type} (providers : gmap string (Provider S))
    (name : string) : Provider S + error :=
  match providers !! name with
  | Some provider => inl provider
  | None => inr (noProviderError name)
  end.

(** [goth.UseProviders]: each provider is stored under its own name, in
    order, a later one replacing an earlier one of the same name. *)
Fixpoint UseProviders {S : Type} (providers : gmap string (Provider S))
    (viders : list (Provider S)) : gmap string (Provider S) :=
  match viders with
  | [] => providers
  | provider :: rest => UseProviders (<[Name provider := provider]> providers) rest
  end.

End goth.

Section Adaptor.

Variable S : Type.
Variable lib : Goth S.

(** ** GetAuthURL (oauth.go:134-158)

    The context comes back with the result, since the last step writes
    the session store. *)
Definition GetAuthURL (cfg : Config) (providers : gmap string (Provider S))
    (ctx : Context) : string * option error * Context :=
  match GetProviderName cfg ctx with
  | (_, Some err) => ("", Some err, ctx)
  | (providerName, None) =>
    match goth.GetProvider providers providerName with
    | inr err => ("", Some err, ctx)
    | inl provider =>
      match BeginAuth provider (setState ctx) with
      | (_, Some err) => ("", Some err, ctx)
      | (sess, None) =>
        match SessGetAuthURL sess with
        | (_, Some err) => ("", Some err, ctx)
        | (url, None) =>
          (url, None, SessionSet ctx SessionValueKey (VString (Marshal sess)))
        end
      end
    end
  end.

(** ** CompleteUserAuth (oauth.go:165-192) *)
Definition CompleteUserAuth (cfg : Config) (providers : gmap string (Provider S))
    (ctx : Context) : User * option error :=
  match GetProviderName cfg ctx with
  | (_, Some err) => (zeroUser, Some err)
  | (providerName, None) =>
    match goth.GetProvider providers providerName with
    | inr err => (zeroUser, Some err)
    | inl provider =>
      match SessionGet ctx SessionValueKey with
      | None => (zeroUser, Some errNoMatchingSession)
      | Some _ =>
        match UnmarshalSession provider (SessionGetString ctx SessionValueKey) with
        | (_, Some err) => (zeroUser, Some err)
        | (sess, None) =>
          match Authorize sess provider (query ctx) with
          | (_, (_, Some err)) => (zeroUser, Some err)
          | (sess', (_, None)) => FetchUser provider sess'
          end
        end
      end
    end
  end.

(** ** BeginAuthHandler (oauth.go:115-124) *)
Definition BeginAuthHandler (cfg : Config) (providers : gmap string (Provider S))
    (ctx : Context) : option error * Context :=
  match GetAuthURL cfg providers ctx with
  | (_, Some err, ctx') => (Some err, NotFound ctx')
  | (url, None, ctx') => (None, Redirect url ctx')
  end.

(** ** Handlers

    A handler runs on the context of one request, with the provider
    registry as it stands at that time; [next] is what [ctx.Next()] runs:
    the rest of the route's chain. *)
Definition HandlerFunc : Type :=
  gmap string (Provider S) -> (Context -> Context) -> Context -> Context.

Fixpoint run_chain (providers : gmap string (Provider S))
    (handlers : list HandlerFunc) (ctx : Context) : Context :=
  match handlers with
  | [] => ctx
  | h :: rest => h providers (run_chain providers rest) ctx
  end.

Definition runtimeErrorMessage (ctx : Context) (err : error) : string :=
  "oauth adaptor runtime error on '" ++ Path ctx ++ "'. Trace: " ++ Error err.

(** The handler of the request-initiation route (oauth.go:79-84). *)
Definition beginHandler (cfg : Config) : HandlerFunc :=
  fun providers _ ctx =>
    match BeginAuthHandler cfg providers ctx with
    | (Some err, ctx') => Log DevMode (runtimeErrorMessage ctx' err) ctx'
    | (None, ctx') => ctx'
    end.

(** The first handler of the callback route (oauth.go:87-96). *)
Definition authMiddleware (cfg : Config) : HandlerFunc :=
  fun providers next ctx =>
    match CompleteUserAuth cfg providers ctx with
    | (_, Some err) =>
      let ctx' := EmitError StatusUnauthorized ctx in
      Log DevMode (runtimeErrorMessage ctx' err) ctx'
    | (user, None) => next (Set_ ctx (ContextKey cfg) (VUser user))
    end.

(** ** Oauth.User (oauth.go:41-43)

    [ctx.Get(key).(goth.User)] is a type assertion in its one-result
    form: it panics unless the stored value is a [goth.User]. *)
Inductive Outcome (A : Type) : Type :=
  | Returns (a : A)
  | Panics.

Definition Oauth_User (cfg : Config) (ctx : Context) : Outcome User :=
  match Get ctx (ContextKey cfg) with
  | Some (VUser u) => Returns User u
  | _ => Panics User
  end.

(** ** The adaptor, the framework it boots into, and [boot] *)

Record Oauth : Type := mkOauth {
  Cfg : Config;
  successHandlers : list HandlerFunc;
  failHandler : option HandlerFunc;
  station : bool  (* false: nil; true: the framework [boot] ran on *)
}.

Record Route : Type := mkRoute {
  routeMethod : string;
  routePath : string;
  routeName : string;
  routeHandlers : list HandlerFunc
}.

Record Framework : Type := mkFramework {
  VScheme : string;
  VHost : string;
  routes : list Route;
  errorHandlers : list (Z * HandlerFunc);
  logged : list (LogMode * string)
}.

Definition FLog (mode : LogMode) (msg : string) (s : Framework) : Framework :=
  mkFramework (VScheme s) (VHost s) (routes s) (errorHandlers s)
              (logged s ++ [(mode, msg)]).

(** [s.Get(path, handlers...)] followed, for the first route, by
    [ChangeName]. *)
Definition FGet (rpath name : string) (handlers : list HandlerFunc)
    (s : Framework) : Framework :=
  mkFramework (VScheme s) (VHost s)
              (routes s ++ [mkRoute "GET" rpath name handlers])
              (errorHandlers s) (logged s).

Definition OnError (status : Z) (h : HandlerFunc) (s : Framework) : Framework :=
  mkFramework (VScheme s) (VHost s) (routes s)
              (errorHandlers s ++ [(status, h)]) (logged s).

Definition disabledMessage : string :=
  "oauth adaptor disabled: Config.RequestPath or/and RequestPathParam or/and Config.CallbackRelativePath are empty,
please set them and restart the app".

(** Modelled from the spec: [Config.GenerateProviders] lives in the
    adaptor's config.go, which is not among the sources.  The spec
    describes the configuration as a record mapping provider names to
    credential pairs and the generated list as holding every entry of
    it; the host prefix is what the constructor gets for the callback. *)
Definition GenerateProviders (cfg : Config) (vhost : string) : list (Provider S) :=
  (fun entry : string * (string * string) =>
     newProvider entry.1 entry.2.1 entry.2.2 vhost)
  <$> map_to_list (Credentials cfg).

(** The state [boot] works on: the adaptor, the framework and the
    library's package-level registry. *)
Record World : Type := mkWorld {
  adaptor : Oauth;
  framework : Framework;
  registry : gmap string (Provider S)
}.

(** ** boot (oauth.go:70-107) *)
Definition boot (w : World) : World :=
  let p := adaptor w in
  let s := framework w in
  let cfg := Cfg p in
  if decide (RequestPath cfg = "" \/ CallbackRelativePath cfg = ""
             \/ RequestPathParam cfg = "")
  then mkWorld p (FLog ProdMode disabledMessage s) (registry w)
  else
    let oauthProviders := GenerateProviders cfg (VScheme s ++ VHost s) in
    if decide (0 < length oauthProviders)%nat then
      let reg := goth.UseProviders (registry w) oauthProviders in
      let s := FGet (RequestPath cfg) (RouteName cfg) [beginHandler cfg] s in
      let handlers := authMiddleware cfg :: successHandlers p in
      let s := FGet (RequestPath cfg ++ CallbackRelativePath cfg) "" handlers s in
      let p := mkOauth cfg handlers (failHandler p) true in
      let s := match failHandler p with
               | Some h => OnError StatusUnauthorized h s
               | None => s
               end in
      mkWorld p s reg
    else w.

End Adaptor.

Arguments GetAuthURL {S lib} cfg providers ctx.
Arguments CompleteUserAuth {S lib} cfg providers ctx.
Arguments BeginAuthHandler {S lib} cfg providers ctx.
Arguments HandlerFunc S : clear implicits.
Arguments run_chain {S} providers handlers ctx.
Arguments beginHandler {S lib} cfg.
Arguments authMiddleware {S lib} cfg.
Arguments Returns {A} a.
Arguments Panics {A}.
Arguments mkOauth {S} _ _ _ _.
Arguments Cfg {S} _.
Arguments successHandlers {S} _.
Arguments failHandler {S} _.
Arguments station {S} _.
Arguments mkRoute {S} _ _ _ _.
Arguments mkFramework {S} _ _ _ _ _.
Arguments VScheme {S} _.
Arguments VHost {S} _.
Arguments routes {S} _.
Arguments errorHandlers {S} _.
Arguments logged {S} _.
Arguments GenerateProviders {S lib} cfg vhost.
Arguments mkWorld {S} _ _ _.
Arguments adaptor {S} _.
Arguments framework {S} _.
Arguments registry {S} _.
Arguments boot {S lib} w.

(** The same request with another query string. *)
Definition with_query (q : list (string * string)) (ctx : Context) : Context :=
  mkContext (path ctx) (params ctx) q (values ctx) (session ctx) (events ctx).

(** ** A small instance of the library, to run the adaptor on

    Sessions are strings.  A provider begins a session holding the state it
    was given, a session with an empty blob has no authorization URL, and
    authorization needs a [code] in the callback's query. *)
Module Sample.

Definition provider (name key secret callback : string) : Provider string :=
  mkProvider name
    (fun state => (state, None))
    (fun blob => (blob, None))
    (fun sess => (mkUser name "" "" "" sess "", None)).

#[global] Instance lib : Goth string := {|
  SessGetAuthURL sess :=
    if decide (sess = "") then ("", Some (New "no session"))
    else ("https://provider.test/authorize?state=" ++ sess, None);
  Marshal sess := sess;
  Authorize sess _ q :=
    if decide (get_first "code" q = "")
    then (sess, ("", Some (New "authorization refused")))
    else (sess, (get_first "code" q, None));
  newProvider := provider
|}.

Definition cfg : Config :=
  mkConfig "/oauth/{provider}" "provider" "/callback" "oauth" "user"
           {[ "github" := ("KEY", "SECRET") ]}.

(** Nothing configured: no provider would be generated. *)
Definition cfg_no_providers : Config :=
  mkConfig "/oauth/{provider}" "provider" "/callback" "oauth" "user" ∅.

Definition github : Provider string := provider "github" "KEY" "SECRET" "http://localhost".

Definition providers : gmap string (Provider string) := {[ "github" := github ]}.

(** A request naming no provider, with an empty session store. *)
Definition bare : Context := mkContext "/oauth" [] [] ∅ ∅ [].

(** A request for github through the path parameter, and one that also
    names another provider in the query. *)
Definition for_github : Context :=
  mkContext "/oauth/github" [("provider", "github")] [] ∅ ∅ [].

Definition for_github_and_query : Context :=
  mkContext "/oauth/github" [("provider", "github")] [("provider", "gplus")] ∅ ∅ [].

(** A request for a provider that was never registered. *)
Definition for_unknown : Context :=
  mkContext "/oauth/gitlab" [("provider", "gitlab")] [] ∅ ∅ [].

Definition fw : Framework string := mkFramework "http://" "localhost" [] [] [].

Definition world : World string :=
  mkWorld (mkOauth cfg_no_providers [] None false) fw ∅.

End Sample.

(** ** Registering handlers (oauth.go:28-36)

    [Success] appends to the adaptor's success handlers; [Fail] stores the
    handler it is given, which may be a nil func. *)
Definition Success {S : Type} (p : Oauth S) (handlersFn : list (HandlerFunc S)) : Oauth S :=
  mkOauth (Cfg p) (successHandlers p ++ handlersFn) (failHandler p) (station p).

Definition Fail {S : Type} (p : Oauth S) (handler : option (HandlerFunc S)) : Oauth S :=
  mkOauth (Cfg p) (successHandlers p) handler (station p).

Arguments routeMethod {S} _.
Arguments routePath {S} _.
Arguments routeName {S} _.
Arguments routeHandlers {S} _.

(** The adaptor put in place of the one a world holds: what a call of
    [Success] or [Fail] on the adaptor amounts to for the whole state. *)
Definition with_adaptor {S : Type} (p : Oauth S) (w : World S) : World S :=
  mkWorld p (framework w) (registry w).

(** ** The Django view adaptor (adaptors/view/django.go)

    Of the engine only its configuration matters here: the two maps that
    [Filters] and [Globals] fill and the debug switch.  The filter
    functions of pongo2 are opaque values. *)
Module view.

Record EngineConfig (F : Type) : Type := mkEngineConfig {
  Config_Filters : gmap string F;
  Config_Globals : gmap string Value;
  Config_DebugTemplates : bool
}.

Arguments mkEngineConfig {F} _ _ _.
Arguments Config_Filters {F} _.
Arguments Config_Globals {F} _.
Arguments Config_DebugTemplates {F} _.

Record DjangoAdaptor (F : Type) : Type := mkDjangoAdaptor {
  directory : string;
  extension : string;
  engine : EngineConfig F
}.

Arguments mkDjangoAdaptor {F} _ _ _.
Arguments directory {F} _.
Arguments extension {F} _.
Arguments engine {F} _.

(** [for k, v := range src { dst[k] = v }], with the entries of [src] in
    the order the loop happens to visit them. *)
Definition assign_all {V : Type} (entries : list (string * V))
    (dst : gmap string V) : gmap string V :=
  foldl (fun acc kv => <[kv.1 := kv.2]> acc) dst entries.

(** django.go:32-45. *)
Definition Filters {F : Type} (filtersMap : gmap string F)
    (d : DjangoAdaptor F) : DjangoAdaptor F :=
  if decide (size filtersMap = 0%nat) then d
  else
    mkDjangoAdaptor (directory d) (extension d)
      (mkEngineConfig
         (assign_all (map_to_list filtersMap) (Config_Filters (engine d)))
         (Config_Globals (engine d))
         (Config_DebugTemplates (engine d))).

(** django.go:48-58. *)
Definition Globals {F : Type} (globalsMap : gmap string Value)
    (d : DjangoAdaptor F) : DjangoAdaptor F :=
  if decide (size globalsMap = 0%nat) then d
  else
    mkDjangoAdaptor (directory d) (extension d)
      (mkEngineConfig
         (Config_Filters (engine d))
         (assign_all (map_to_list globalsMap) (Config_Globals (engine d)))
         (Config_DebugTemplates (engine d))).

(** django.go:62-65. *)
Definition DebugTemplates {F : Type} (debug : bool)
    (d : DjangoAdaptor F) : DjangoAdaptor F :=
  mkDjangoAdaptor (directory d) (extension d)
    (mkEngineConfig (Config_Filters (engine d)) (Config_Globals (engine d)) debug).

End view.

(** ** More requests and states for the sample instance *)
Module Scenario.

(** A world whose configuration generates the github provider. *)
Definition world : World string :=
  mkWorld (mkOauth Sample.cfg [] None false) Sample.fw ∅.

(** A success handler that leaves a trace of its run. *)
Definition mark (msg : string) : HandlerFunc string :=
  fun _ next ctx => next (Log ProdMode msg ctx).

(** The callback for github, with the code the provider sent and the
    session a begun handshake left. *)
Definition callback : Context :=
  mkContext "/oauth/github/callback" [("provider", "github")] [("code", "c0de")]
            ∅ {[ SessionValueKey := VString "state" ]} [].

(** The same callback with a session entry that is not a string. *)
Definition callback_odd_session : Context :=
  mkContext "/oauth/github/callback" [("provider", "github")] [("code", "c0de")]
            ∅ {[ SessionValueKey := VInt 7 ]} [].

Definition engine0 : view.DjangoAdaptor nat :=
  view.mkDjangoAdaptor "./templates" ".html"
    (view.mkEngineConfig {[ "upper" := 1%nat ]} ∅ false).

End Scenario.

(** ** The index page of the example (adaptors/oauth/_example/main.go:90-106)

    The handler of ["/"] fills a map from the three configured provider
    names to their labels, collects the keys and sorts them; this is the
    value it renders.  [sort.Strings] orders strings bytewise. *)
Module example.

Record ProviderIndex : Type := mkProviderIndex {
  Providers : list string;
  ProvidersMap : gmap string string
}.

Definition string_le (a b : string) : Prop := String.leb a b = true.

#[global] Instance string_le_dec (a b : string) : Decision (string_le a b).
Proof. unfold string_le. apply _. Defined.

Definition sortStrings (keys : list string) : list string :=
  merge_sort string_le keys.

Definition labels (githubName facebookName gplusName : string) : gmap string string :=
  <[gplusName := "Gplus"]>
    (<[facebookName := "Facebook"]> (<[githubName := "Github"]> ∅)).

Definition providerIndex (githubName facebookName gplusName : string) : ProviderIndex :=
  let m := labels githubName facebookName gplusName in
  let keys := (map_to_list m).*1 in
  mkProviderIndex (sortStrings keys) m.

End example.

(** The sample world after handlers were registered in several calls. *)
Definition world_with_handlers : World string :=
  with_adaptor
    (Fail (Success (Fail (Success (adaptor Scenario.world) [Scenario.mark "first"])
                         (Some (Scenario.mark "failed")))
                   [Scenario.mark "second"])
          None)
    Scenario.world.

(** * Properties *)

(** ** Resolving the provider name *)

Lemma GetProviderName_path (cfg : Config) (ctx : Context) :
  Param ctx (RequestPathParam cfg) ≠ "" →
  GetProviderName cfg ctx = (Param ctx (RequestPathParam cfg), None).
Proof.
  intros Hp. unfold GetProviderName.
  destruct (decide (Param ctx (RequestPathParam cfg) = "")) as [He|_]; [done|].
  by destruct (decide (Param ctx (RequestPathParam cfg) = "")).
Qed.

Lemma GetProviderName_query (cfg : Config) (ctx : Context) :
  Param ctx (RequestPathParam cfg) = "" →
  URLParam ctx (RequestPathParam cfg) ≠ "" →
  GetProviderName cfg ctx = (URLParam ctx (RequestPathParam cfg), None).
Proof.
  intros Hp Hq. unfold GetProviderName. rewrite Hp. simpl.
  by destruct (decide (URLParam ctx (RequestPathParam cfg) = "")).
Qed.

Lemma GetProviderName_absent (cfg : Config) (ctx : Context) :
  Param ctx (RequestPathParam cfg) = "" →
  URLParam ctx (RequestPathParam cfg) = "" →
  GetProviderName cfg ctx = ("", Some errMustSelectProvider).
Proof.
  intros Hp Hq. unfold GetProviderName. rewrite Hp. simpl. by rewrite Hq.
Qed.

(** A name that comes back without an error is never empty. *)
Lemma GetProviderName_ok_nonempty (cfg : Config) (ctx : Context) (name : string) :
  GetProviderName cfg ctx = (name, None) → name ≠ "".
Proof.
  unfold GetProviderName.
  destruct (decide (Param ctx (RequestPathParam cfg) = ""));
    match goal with |- context [decide (?x = "")] => destruct (decide (x = "")) end;
    intros H; inversion H; by subst.
Qed.

(** C5: GetProviderName fails exactly when the provider name is absent.
    When the path parameter and the URL query parameter named by
    [RequestPathParam] are both empty it returns the "you must select a
    provider" error; when one of them is non-empty it returns a non-empty
    name, which is one of the two, with a nil error; hence it returns an
    error if and only if both are empty. *)
Theorem GetProviderName_fails_iff_absent (cfg : Config) (ctx : Context) :
  let key := RequestPathParam cfg in
  (Param ctx key = "" ∧ URLParam ctx key = "" →
     GetProviderName cfg ctx = ("", Some errMustSelectProvider))
  ∧ (Param ctx key ≠ "" ∨ URLParam ctx key ≠ "" →
     ∃ name, GetProviderName cfg ctx = (name, None) ∧ name ≠ ""
             ∧ (name = Param ctx key ∨ name = URLParam ctx key))
  ∧ ((GetProviderName cfg ctx).2 ≠ None ↔
     Param ctx key = "" ∧ URLParam ctx key = "").
Proof.
  intros key. subst key.
  destruct (decide (Param ctx (RequestPathParam cfg) = "")) as [Hp|Hp];
    [destruct (decide (URLParam ctx (RequestPathParam cfg) = "")) as [Hq|Hq]|].
  - rewrite (GetProviderName_absent _ _ Hp Hq). repeat split; try done.
    intros [?|?]; done.
  - rewrite (GetProviderName_query _ _ Hp Hq). repeat split.
    + by intros [_ ?].
    + intros _. exists (URLParam ctx (RequestPathParam cfg)). auto.
    + done.
    + done.
    + by intros [_ ?].
  - rewrite (GetProviderName_path _ _ Hp). repeat split.
    + by intros [? _].
    + intros _. exists (Param ctx (RequestPathParam cfg)). auto.
    + done.
    + done.
    + by intros [? _].
Qed.

(** C9: the path parameter takes precedence over the URL query parameter.
    When the path parameter named by [RequestPathParam] is non-empty,
    GetProviderName returns it with a nil error, whatever the query string
    holds. *)
Theorem GetProviderName_path_precedence (cfg : Config) (ctx : Context) :
  Param ctx (RequestPathParam cfg) ≠ "" →
  GetProviderName cfg ctx = (Param ctx (RequestPathParam cfg), None)
  ∧ ∀ q, GetProviderName cfg (with_query q ctx) = GetProviderName cfg ctx.
Proof.
  intros Hp. split; [by apply GetProviderName_path|].
  intros q. rewrite (GetProviderName_path cfg ctx Hp).
  by rewrite (GetProviderName_path cfg (with_query q ctx)).
Qed.

Lemma GetProviderName_path_precedence_witness :
  Param Sample.for_github_and_query (RequestPathParam Sample.cfg) ≠ ""
  ∧ GetProviderName Sample.cfg Sample.for_github_and_query = ("github", None)
  ∧ GetProviderName Sample.cfg (with_query [] Sample.for_github_and_query)
    = GetProviderName Sample.cfg Sample.for_github_and_query.
Proof.
  assert (H : Param Sample.for_github_and_query (RequestPathParam Sample.cfg) ≠ "")
    by (vm_compute; discriminate).
  split; [exact H|].
  destruct (GetProviderName_path_precedence Sample.cfg Sample.for_github_and_query H)
    as [H1 H2].
  split; [exact H1 | exact (H2 [])].
Defined.

(** The query parameter decides the outcome only when the path parameter
    is empty. *)
Lemma GetProviderName_query_only_if_path_empty (cfg : Config) (ctx : Context) :
  Param ctx (RequestPathParam cfg) = "" →
  GetProviderName cfg ctx
  = (URLParam ctx (RequestPathParam cfg),
     if decide (URLParam ctx (RequestPathParam cfg) = "")
     then Some errMustSelectProvider else None).
Proof.
  intros Hp. unfold GetProviderName. rewrite Hp. simpl.
  by destruct (decide (URLParam ctx (RequestPathParam cfg) = "")).
Qed.

(** ** The two halves of the handshake *)

Section Flow.

Variable S : Type.
Variable lib : Goth S.

Implicit Types (cfg : Config) (ctx : Context) (providers : gmap string (Provider S)).

Lemma GetProvider_unregistered providers (name : string) :
  providers !! name = None →
  goth.GetProvider providers name = inr (goth.noProviderError name).
Proof. intros H. unfold goth.GetProvider. by rewrite H. Qed.

Lemma GetProvider_registered providers (name : string) (provider : Provider S) :
  providers !! name = Some provider →
  goth.GetProvider providers name = inl provider.
Proof. intros H. unfold goth.GetProvider. by rewrite H. Qed.

(** C3: when the resolved provider name is not in the registry, GetAuthURL
    and CompleteUserAuth both return the error of the registry lookup, with
    the empty URL and the zero user; GetAuthURL leaves the context as it
    was. *)
Theorem unregistered_provider_lookup_error cfg providers ctx (name : string) :
  GetProviderName cfg ctx = (name, None) →
  providers !! name = None →
  goth.GetProvider providers name = inr (goth.noProviderError name)
  ∧ GetAuthURL cfg providers ctx = ("", Some (goth.noProviderError name), ctx)
  ∧ CompleteUserAuth cfg providers ctx = (zeroUser, Some (goth.noProviderError name)).
Proof.
  intros Hname Hreg.
  pose proof (GetProvider_unregistered providers name Hreg) as Hget.
  split; [exact Hget|].
  unfold GetAuthURL, CompleteUserAuth. by rewrite Hname, Hget.
Qed.

(** GetAuthURL, case by case, in the order of its steps. *)
Lemma GetAuthURL_no_name cfg providers ctx (name : string) (err : error) :
  GetProviderName cfg ctx = (name, Some err) →
  GetAuthURL cfg providers ctx = ("", Some err, ctx).
Proof. intros H. unfold GetAuthURL. by rewrite H. Qed.

Lemma GetAuthURL_no_provider cfg providers ctx (name : string) (err : error) :
  GetProviderName cfg ctx = (name, None) →
  goth.GetProvider providers name = inr err →
  GetAuthURL cfg providers ctx = ("", Some err, ctx).
Proof. intros H1 H2. unfold GetAuthURL. by rewrite H1, H2. Qed.

Lemma GetAuthURL_begin_fails cfg providers ctx (name : string)
    (provider : Provider S) (sess : S) (err : error) :
  GetProviderName cfg ctx = (name, None) →
  goth.GetProvider providers name = inl provider →
  BeginAuth provider (setState ctx) = (sess, Some err) →
  GetAuthURL cfg providers ctx = ("", Some err, ctx).
Proof. intros H1 H2 H3. unfold GetAuthURL. by rewrite H1, H2, H3. Qed.

Lemma GetAuthURL_url_fails cfg providers ctx (name : string)
    (provider : Provider S) (sess : S) (url : string) (err : error) :
  GetProviderName cfg ctx = (name, None) →
  goth.GetProvider providers name = inl provider →
  BeginAuth provider (setState ctx) = (sess, None) →
  SessGetAuthURL sess = (url, Some err) →
  GetAuthURL cfg providers ctx = ("", Some err, ctx).
Proof. intros H1 H2 H3 H4. unfold GetAuthURL. by rewrite H1, H2, H3, H4. Qed.

Lemma GetAuthURL_success cfg providers ctx (name : string)
    (provider : Provider S) (sess : S) (url : string) :
  GetProviderName cfg ctx = (name, None) →
  goth.GetProvider providers name = inl provider →
  BeginAuth provider (setState ctx) = (sess, None) →
  SessGetAuthURL sess = (url, None) →
  GetAuthURL cfg providers ctx
  = (url, None, SessionSet ctx SessionValueKey (VString (Marshal sess))).
Proof. intros H1 H2 H3 H4. unfold GetAuthURL. by rewrite H1, H2, H3, H4. Qed.

(** A call of GetAuthURL that reports an error gives back the empty URL
    and the context it was given. *)
Lemma GetAuthURL_failure_unchanged cfg providers ctx :
  (GetAuthURL cfg providers ctx).1.2 ≠ None →
  (GetAuthURL cfg providers ctx).1.1 = "" ∧ (GetAuthURL cfg providers ctx).2 = ctx.
Proof.
  unfold GetAuthURL.
  destruct (GetProviderName cfg ctx) as [name [err|]]; [done|].
  destruct (goth.GetProvider providers name) as [provider|err]; [|done].
  destruct (BeginAuth provider (setState ctx)) as [sess [err|]]; [done|].
  destruct (SessGetAuthURL sess) as [url [err|]]; done.
Qed.

(** Writing the session store touches one key only. *)
Lemma SessionSet_lookup ctx (key : string) (v : Value) :
  session (SessionSet ctx key v) !! key = Some v
  ∧ ∀ k, k ≠ key → session (SessionSet ctx key v) !! k = session ctx !! k.
Proof.
  split; simpl.
  - apply lookup_insert_eq.
  - intros k Hk. by apply lookup_insert_ne.
Qed.

(** C6: GetAuthURL persists exactly one session entry, under
    SessionValueKey, and only on success.  When resolving the provider
    name, the registry lookup, BeginAuth on the state of the request and the
    session's GetAuthURL all succeed, it returns the session's URL with a nil
    error and stores the marshalled session of that very BeginAuth call
    under SessionValueKey.  If any of the four fails, the error is returned
    with the empty URL and the context, session store included, is the one
    that was passed in.  A nil error comes back only from the successful
    path, and the context then differs from the one passed in in the value
    under SessionValueKey alone. *)
Theorem GetAuthURL_session_only_on_success cfg providers ctx :
  let r := GetAuthURL cfg providers ctx in
  (∀ name err, GetProviderName cfg ctx = (name, Some err) →
     r = ("", Some err, ctx))
  ∧ (∀ name err, GetProviderName cfg ctx = (name, None) →
     goth.GetProvider providers name = inr err →
     r = ("", Some err, ctx))
  ∧ (∀ name provider sess err, GetProviderName cfg ctx = (name, None) →
     goth.GetProvider providers name = inl provider →
     BeginAuth provider (setState ctx) = (sess, Some err) →
     r = ("", Some err, ctx))
  ∧ (∀ name provider sess url err, GetProviderName cfg ctx = (name, None) →
     goth.GetProvider providers name = inl provider →
     BeginAuth provider (setState ctx) = (sess, None) →
     SessGetAuthURL sess = (url, Some err) →
     r = ("", Some err, ctx))
  ∧ (∀ name provider sess url, GetProviderName cfg ctx = (name, None) →
     goth.GetProvider providers name = inl provider →
     BeginAuth provider (setState ctx) = (sess, None) →
     SessGetAuthURL sess = (url, None) →
     r = (url, None, SessionSet ctx SessionValueKey (VString (Marshal sess)))
     ∧ SessionGet r.2 SessionValueKey = Some (VString (Marshal sess))
     ∧ SessionGetString r.2 SessionValueKey = Marshal sess)
  ∧ (r.1.2 ≠ None → r.1.1 = "" ∧ r.2 = ctx)
  ∧ (r.1.2 = None →
     ∃ name provider sess,
       GetProviderName cfg ctx = (name, None)
       ∧ goth.GetProvider providers name = inl provider
       ∧ BeginAuth provider (setState ctx) = (sess, None)
       ∧ SessGetAuthURL sess = (r.1.1, None)
       ∧ r.2 = SessionSet ctx SessionValueKey (VString (Marshal sess))
       ∧ session r.2 = <[SessionValueKey := VString (Marshal sess)]> (session ctx)
       ∧ session r.2 !! SessionValueKey = Some (VString (Marshal sess))
       ∧ (∀ k, k ≠ SessionValueKey → session r.2 !! k = session ctx !! k)
       ∧ values r.2 = values ctx ∧ events r.2 = events ctx).
Proof.
  intros r.
  split; [intros; subst r; by eapply GetAuthURL_no_name|].
  split; [intros; subst r; by eapply GetAuthURL_no_provider|].
  split; [intros; subst r; by eapply GetAuthURL_begin_fails|].
  split; [intros; subst r; by eapply GetAuthURL_url_fails|].
  split.
  { intros name provider sess url H1 H2 H3 H4. subst r.
    rewrite (GetAuthURL_success cfg providers ctx name provider sess url H1 H2 H3 H4).
    split; [done|]. unfold SessionGet, SessionGetString. simpl.
    by rewrite lookup_insert_eq. }
  split; [subst r; apply GetAuthURL_failure_unchanged|].
  subst r. unfold GetAuthURL.
  destruct (GetProviderName cfg ctx) as [name [err|]]; [done|].
  destruct (goth.GetProvider providers name) as [provider|err] eqn:Hprov; [|done].
  destruct (BeginAuth provider (setState ctx)) as [sess [err|]] eqn:Hbegin; [done|].
  destruct (SessGetAuthURL sess) as [url [err|]] eqn:Hurl; [done|].
  intros _. exists name, provider, sess. simpl.
  split; [reflexivity|]. split; [exact Hprov|]. split; [exact Hbegin|].
  split; [exact Hurl|]. split; [reflexivity|]. split; [reflexivity|].
  split; [apply lookup_insert_eq|].
  split; [|done]. intros k Hk. by apply lookup_insert_ne.
Qed.

(** CompleteUserAuth never returns a user together with an error of its
    own making: up to the last step the user is the zero value. *)
Lemma CompleteUserAuth_no_name cfg providers ctx (name : string) (err : error) :
  GetProviderName cfg ctx = (name, Some err) →
  CompleteUserAuth cfg providers ctx = (zeroUser, Some err).
Proof. intros H. unfold CompleteUserAuth. by rewrite H. Qed.

Lemma CompleteUserAuth_no_provider cfg providers ctx (name : string) :
  GetProviderName cfg ctx = (name, None) →
  providers !! name = None →
  CompleteUserAuth cfg providers ctx = (zeroUser, Some (goth.noProviderError name)).
Proof.
  intros H1 H2. unfold CompleteUserAuth.
  by rewrite H1, (GetProvider_unregistered _ _ H2).
Qed.

(** C2, as the code has it: without a session-store entry under
    SessionValueKey, CompleteUserAuth returns the "could not find a matching
    session" error and the zero user once the provider name has been
    resolved and found in the registry; a missing name or an unregistered
    provider is reported first, with its own error.  In every case the user
    is the zero value and the error is not nil. *)
Theorem CompleteUserAuth_no_session cfg providers ctx :
  SessionGet ctx SessionValueKey = None →
  (∀ name provider, GetProviderName cfg ctx = (name, None) →
     providers !! name = Some provider →
     CompleteUserAuth cfg providers ctx = (zeroUser, Some errNoMatchingSession))
  ∧ (∀ name err, GetProviderName cfg ctx = (name, Some err) →
     CompleteUserAuth cfg providers ctx = (zeroUser, Some err))
  ∧ (∀ name, GetProviderName cfg ctx = (name, None) →
     providers !! name = None →
     CompleteUserAuth cfg providers ctx = (zeroUser, Some (goth.noProviderError name)))
  ∧ (CompleteUserAuth cfg providers ctx).1 = zeroUser
  ∧ (CompleteUserAuth cfg providers ctx).2 ≠ None.
Proof.
  intros Hsess.
  split; [|split; [|split]].
  - intros name provider H1 H2. unfold CompleteUserAuth.
    by rewrite H1, (GetProvider_registered _ _ _ H2), Hsess.
  - intros name err. apply CompleteUserAuth_no_name.
  - intros name. apply CompleteUserAuth_no_provider.
  - unfold CompleteUserAuth.
    destruct (GetProviderName cfg ctx) as [name [err|]]; [done|].
    destruct (goth.GetProvider providers name) as [provider|err]; [|done].
    by rewrite Hsess.
Qed.

(** ** The route handlers *)

(** The request-initiation route: a failure of GetAuthURL ends in a 404. *)
Lemma beginHandler_failure cfg providers (next : Context → Context) ctx (err : error) :
  (GetAuthURL cfg providers ctx).1.2 = Some err →
  beginHandler cfg providers next ctx
  = Log DevMode (runtimeErrorMessage ctx err) (NotFound ctx).
Proof.
  intros H. unfold beginHandler, BeginAuthHandler.
  pose proof (GetAuthURL_failure_unchanged cfg providers ctx) as Hfail.
  destruct (GetAuthURL cfg providers ctx) as [[url oerr] ctx'].
  simpl in *. subst oerr. destruct Hfail as [_ ->]; done.
Qed.

Lemma beginHandler_success cfg providers (next : Context → Context) ctx :
  (GetAuthURL cfg providers ctx).1.2 = None →
  beginHandler cfg providers next ctx
  = Redirect (GetAuthURL cfg providers ctx).1.1 (GetAuthURL cfg providers ctx).2.
Proof.
  intros H. unfold beginHandler, BeginAuthHandler.
  destruct (GetAuthURL cfg providers ctx) as [[url oerr] ctx'].
  simpl in *. by subst oerr.
Qed.

(** The callback route's first handler. *)
Lemma authMiddleware_failure cfg providers (next : Context → Context) ctx (err : error) :
  (CompleteUserAuth cfg providers ctx).2 = Some err →
  authMiddleware cfg providers next ctx
  = Log DevMode (runtimeErrorMessage ctx err) (EmitError StatusUnauthorized ctx).
Proof.
  intros H. unfold authMiddleware.
  destruct (CompleteUserAuth cfg providers ctx) as [user oerr].
  simpl in *. by subst oerr.
Qed.

Lemma authMiddleware_success cfg providers (next : Context → Context) ctx :
  (CompleteUserAuth cfg providers ctx).2 = None →
  authMiddleware cfg providers next ctx
  = next (Set_ ctx (ContextKey cfg) (VUser (CompleteUserAuth cfg providers ctx).1)).
Proof.
  intros H. unfold authMiddleware.
  destruct (CompleteUserAuth cfg providers ctx) as [user oerr].
  simpl in *. by subst oerr.
Qed.

(** C1, as the code has it: a failing callback request, whatever the error
    (missing provider name, provider lookup, authentication), is answered
    with 401 Unauthorized and a log line; a failing request to the
    request-initiation route is answered with 404 Not Found and a log line,
    not with 401. *)
Theorem failure_status_per_route cfg providers (next : Context → Context) ctx :
  (∀ err, (CompleteUserAuth cfg providers ctx).2 = Some err →
     events (authMiddleware cfg providers next ctx)
     = (events ctx ++ [EvEmitError StatusUnauthorized;
                       EvLog DevMode (runtimeErrorMessage ctx err)])%list)
  ∧ (∀ err, (GetAuthURL cfg providers ctx).1.2 = Some err →
     events (beginHandler cfg providers next ctx)
     = (events ctx ++ [EvEmitError StatusNotFound;
                       EvLog DevMode (runtimeErrorMessage ctx err)])%list).
Proof.
  split; intros err H.
  - rewrite (authMiddleware_failure _ _ _ _ _ H). simpl. by rewrite <- app_assoc.
  - rewrite (beginHandler_failure _ _ _ _ _ H). simpl. by rewrite <- app_assoc.
Qed.

(** C4: on one callback request the auth middleware does one of two
    things, decided by the error of CompleteUserAuth.  With an error, it
    emits 401 and logs, and the result does not depend on the rest of the
    chain: [ctx.Next()] is not called and no success handler runs.  With a
    nil error, it emits nothing itself, stores the user under ContextKey
    and hands exactly that context to the success handlers. *)
Theorem success_failure_exclusive cfg providers
    (handlers : list (HandlerFunc S)) ctx :
  let chain := authMiddleware cfg :: handlers in
  (∃ err, (CompleteUserAuth cfg providers ctx).2 = Some err
     ∧ (∀ next, authMiddleware cfg providers next ctx
          = Log DevMode (runtimeErrorMessage ctx err)
                (EmitError StatusUnauthorized ctx))
     ∧ run_chain providers chain ctx
       = Log DevMode (runtimeErrorMessage ctx err)
             (EmitError StatusUnauthorized ctx)
     ∧ events (run_chain providers chain ctx)
       = (events ctx ++ [EvEmitError StatusUnauthorized;
                         EvLog DevMode (runtimeErrorMessage ctx err)])%list)
  ∨ (∃ user, CompleteUserAuth cfg providers ctx = (user, None)
     ∧ (∀ next, authMiddleware cfg providers next ctx
          = next (Set_ ctx (ContextKey cfg) (VUser user)))
     ∧ run_chain providers chain ctx
       = run_chain providers handlers (Set_ ctx (ContextKey cfg) (VUser user))
     ∧ events (Set_ ctx (ContextKey cfg) (VUser user)) = events ctx).
Proof.
  intros chain. subst chain.
  destruct (CompleteUserAuth cfg providers ctx) as [user [err|]] eqn:Hc.
  - left. exists err.
    assert (Hm : ∀ next, authMiddleware cfg providers next ctx
                 = Log DevMode (runtimeErrorMessage ctx err)
                       (EmitError StatusUnauthorized ctx)).
    { intros next. apply authMiddleware_failure. by rewrite Hc. }
    split; [done|]. split; [exact Hm|].
    simpl. rewrite Hm. split; [done|]. simpl. by rewrite <- app_assoc.
  - right. exists user.
    assert (Hm : ∀ next, authMiddleware cfg providers next ctx
                 = next (Set_ ctx (ContextKey cfg) (VUser user))).
    { intros next. rewrite authMiddleware_success; by rewrite Hc. }
    split; [done|]. split; [exact Hm|].
    simpl. by rewrite Hm.
Qed.

(** C10: User returns the stored user only when the value under ContextKey
    is a goth.User, as it is in the context the auth middleware hands to
    the success handlers; on a context with nothing under that key, or with
    a value of another type, the type assertion panics: no zero user comes
    back as a normal value. *)
Theorem User_unchecked_assertion cfg ctx :
  (∀ u, Get ctx (ContextKey cfg) = Some (VUser u) → Oauth_User cfg ctx = Returns u)
  ∧ (Get ctx (ContextKey cfg) = None → Oauth_User cfg ctx = Panics)
  ∧ (∀ v, Get ctx (ContextKey cfg) = Some v → (∀ u, v ≠ VUser u) →
     Oauth_User cfg ctx = Panics)
  ∧ (∀ u, Oauth_User cfg (Set_ ctx (ContextKey cfg) (VUser u)) = Returns u)
  ∧ (∀ providers, (CompleteUserAuth cfg providers ctx).2 = None →
     authMiddleware cfg providers (λ c, c) ctx
     = Set_ ctx (ContextKey cfg) (VUser (CompleteUserAuth cfg providers ctx).1)
     ∧ Oauth_User cfg (authMiddleware cfg providers (λ c, c) ctx)
       = Returns (CompleteUserAuth cfg providers ctx).1).
Proof.
  unfold Oauth_User.
  split; [by intros u ->|]. split; [by intros ->|].
  split; [intros v -> Hv; destruct v; try done; by destruct (Hv u)|].
  assert (Hset : ∀ u, match Get (Set_ ctx (ContextKey cfg) (VUser u)) (ContextKey cfg) with
                      | Some (VUser u') => Returns u'
                      | _ => Panics
                      end = Returns u).
  { intros u. unfold Get, Set_. simpl. by rewrite lookup_insert_eq. }
  split; [exact Hset|].
  intros providers H. rewrite (authMiddleware_success _ _ _ _ H).
  split; [done | apply Hset].
Qed.

(** ** Provider generation and boot *)

(** No element of a list has an image that does not occur among the
    images. *)
Lemma filter_image_none {A B : Type} `{EqDecision B} (f : A → B) (l : list A) (b : B) :
  b ∉ f <$> l → filter (λ a, f a = b) l = [].
Proof.
  induction l as [|a l IH]; [done|].
  rewrite fmap_cons, not_elem_of_cons. intros [Hne Hnotin].
  rewrite filter_cons. destruct (decide (f a = b)) as [Heq|_]; [by destruct Hne|].
  by apply IH.
Qed.

(** In a list whose images under [f] are pairwise distinct, the elements
    with a given image that occurs are exactly one. *)
Lemma filter_image_once {A B : Type} `{EqDecision B} (f : A → B) (l : list A) (b : B) :
  NoDup (f <$> l) → b ∈ f <$> l →
  length (filter (λ a, f a = b) l) = 1%nat.
Proof.
  induction l as [|a l IH].
  - intros _ Hin. by apply elem_of_nil in Hin.
  - rewrite fmap_cons. intros Hnd Hin. apply NoDup_cons in Hnd as [Hnotin Hnd].
    rewrite filter_cons. destruct (decide (f a = b)) as [Heq|Hne].
    + subst b. by rewrite (filter_image_none f l (f a) Hnotin).
    + apply elem_of_cons in Hin as [Heq|Hin]; [by destruct Hne|].
      by apply IH.
Qed.

Lemma GenerateProviders_names cfg (vhost : string) :
  (∀ name key secret callback, Name (newProvider name key secret callback) = name) →
  Name <$> GenerateProviders cfg vhost = (map_to_list (Credentials cfg)).*1.
Proof.
  intros Hname. unfold GenerateProviders. rewrite <- list_fmap_compose.
  apply list_fmap_ext. intros i [n [k s]] _. simpl. apply Hname.
Qed.

(** C7: with a constructor that names each provider after its entry, and a
    configuration holding at least one entry, the generated list is not
    empty, is as long as the configuration has entries, and for every
    configured name holds the provider built from that entry, and exactly
    one provider of that name. *)
Theorem GenerateProviders_each_once cfg (vhost : string) :
  (∀ name key secret callback, Name (newProvider name key secret callback) = name) →
  Credentials cfg ≠ ∅ →
  GenerateProviders cfg vhost ≠ []
  ∧ length (GenerateProviders cfg vhost) = size (Credentials cfg)
  ∧ ∀ name key secret, Credentials cfg !! name = Some (key, secret) →
      newProvider name key secret vhost ∈ GenerateProviders cfg vhost
      ∧ length (filter (λ p, Name p = name) (GenerateProviders cfg vhost)) = 1%nat.
Proof.
  intros Hname Hne.
  assert (Hlen : length (GenerateProviders cfg vhost) = size (Credentials cfg)).
  { unfold GenerateProviders. rewrite length_fmap. apply length_map_to_list. }
  split; [|split; [exact Hlen|]].
  - intros Hnil. rewrite Hnil in Hlen. simpl in Hlen.
    symmetry in Hlen. by apply map_size_empty_iff in Hlen.
  - intros name key secret Hlk.
    apply elem_of_map_to_list in Hlk.
    split.
    + unfold GenerateProviders.
      by apply (list_elem_of_fmap_2
                  (λ entry : string * (string * string),
                     newProvider entry.1 entry.2.1 entry.2.2 vhost)
                  _ (name, (key, secret))).
    + apply filter_image_once; rewrite (GenerateProviders_names _ _ Hname).
      * apply NoDup_fst_map_to_list.
      * by apply (list_elem_of_fmap_2 fst _ (name, (key, secret))).
Qed.

(** C8: with an empty RequestPath, CallbackRelativePath or
    RequestPathParam, or with no provider generated, boot registers
    nothing: routes, error handlers, the provider registry and the adaptor
    itself are what they were.  The one effect left is the log line written
    when one of the three settings is empty; when only the provider list is
    empty nothing is logged either. *)
Theorem boot_disabled (w : World S) :
  let cfg := Cfg (adaptor w) in
  let s := framework w in
  RequestPath cfg = "" ∨ CallbackRelativePath cfg = "" ∨ RequestPathParam cfg = ""
  ∨ GenerateProviders cfg (VScheme s ++ VHost s) = [] →
  routes (framework (boot w)) = routes s
  ∧ errorHandlers (framework (boot w)) = errorHandlers s
  ∧ registry (boot w) = registry w
  ∧ adaptor (boot w) = adaptor w
  ∧ logged (framework (boot w))
    = if decide (RequestPath cfg = "" ∨ CallbackRelativePath cfg = ""
                 ∨ RequestPathParam cfg = "")
      then (logged s ++ [(ProdMode, disabledMessage)])%list
      else logged s.
Proof.
  intros cfg s H. subst cfg s. unfold boot.
  destruct (decide (RequestPath (Cfg (adaptor w)) = ""
                    ∨ CallbackRelativePath (Cfg (adaptor w)) = ""
                    ∨ RequestPathParam (Cfg (adaptor w)) = "")) as [Hp|Hp].
  - done.
  - assert (Hnil : GenerateProviders (Cfg (adaptor w))
                     (VScheme (framework w) ++ VHost (framework w)) = []).
    { destruct H as [?|[?|[?|?]]]; try done; destruct Hp; auto. }
    rewrite Hnil. simpl. done.
Qed.

(** With the three settings in place and a provider generated, boot does
    register: both routes, the providers, and the 401 handler if there is
    one. *)
Lemma boot_enabled (w : World S) :
  let cfg := Cfg (adaptor w) in
  let s := framework w in
  RequestPath cfg ≠ "" → CallbackRelativePath cfg ≠ "" → RequestPathParam cfg ≠ "" →
  GenerateProviders cfg (VScheme s ++ VHost s) ≠ [] →
  routes (framework (boot w))
  = (routes s ++ [mkRoute "GET" (RequestPath cfg) (RouteName cfg) [beginHandler cfg];
                  mkRoute "GET" (RequestPath cfg ++ CallbackRelativePath cfg) ""
                          (authMiddleware cfg :: successHandlers (adaptor w))])%list
  ∧ registry (boot w)
    = goth.UseProviders (registry w) (GenerateProviders cfg (VScheme s ++ VHost s))
  ∧ errorHandlers (framework (boot w))
    = match failHandler (adaptor w) with
      | Some h => (errorHandlers s ++ [(StatusUnauthorized, h)])%list
      | None => errorHandlers s
      end.
Proof.
  intros cfg s H1 H2 H3 Hgen. subst cfg s. unfold boot.
  destruct (decide _) as [[?|[?|?]]|_]; [done..|].
  destruct (GenerateProviders _ _) as [|p ps] eqn:Hg; [done|].
  simpl. destruct (failHandler (adaptor w)); simpl; by rewrite <- app_assoc.
Qed.

End Flow.

(** ** The properties on the sample instance *)

(** C3 on a request for a provider that was never registered. *)
Lemma unregistered_provider_lookup_error_witness :
  goth.GetProvider Sample.providers "gitlab" = inr (goth.noProviderError "gitlab")
  ∧ GetAuthURL Sample.cfg Sample.providers Sample.for_unknown
    = ("", Some (goth.noProviderError "gitlab"), Sample.for_unknown)
  ∧ CompleteUserAuth Sample.cfg Sample.providers Sample.for_unknown
    = (zeroUser, Some (goth.noProviderError "gitlab")).
Proof.
  apply (unregistered_provider_lookup_error string Sample.lib
           Sample.cfg Sample.providers Sample.for_unknown "gitlab").
  - vm_compute. reflexivity.
  - vm_compute. reflexivity.
Defined.

(** C2 as stated fails: a callback request with an empty session store that
    names no provider gets the "you must select a provider" error, not the
    "could not find a matching session" one. *)
Lemma CompleteUserAuth_no_session_counterexample :
  SessionGet Sample.bare SessionValueKey = None
  ∧ CompleteUserAuth Sample.cfg Sample.providers Sample.bare
    = (zeroUser, Some errMustSelectProvider)
  ∧ CompleteUserAuth Sample.cfg Sample.providers Sample.bare
    ≠ (zeroUser, Some errNoMatchingSession).
Proof.
  split; [vm_compute; reflexivity|].
  split; [vm_compute; reflexivity|].
  vm_compute. discriminate.
Qed.

(** C2 on a callback request for a registered provider that comes
    without a session. *)
Lemma CompleteUserAuth_no_session_witness :
  SessionGet Sample.for_github SessionValueKey = None
  ∧ CompleteUserAuth Sample.cfg Sample.providers Sample.for_github
    = (zeroUser, Some errNoMatchingSession).
Proof.
  assert (Hs : SessionGet Sample.for_github SessionValueKey = None)
    by (vm_compute; reflexivity).
  split; [exact Hs|].
  destruct (CompleteUserAuth_no_session string Sample.lib
              Sample.cfg Sample.providers Sample.for_github Hs) as [H _].
  apply (H "github" Sample.github); vm_compute; reflexivity.
Defined.

(** C1 as stated fails on the request-initiation route: a request that
    names no provider is answered with 404, and no 401 is emitted. *)
Lemma begin_route_failure_counterexample :
  (GetAuthURL Sample.cfg Sample.providers Sample.bare).1.2
  = Some errMustSelectProvider
  ∧ events (beginHandler Sample.cfg Sample.providers (λ c, c) Sample.bare)
    = [EvEmitError StatusNotFound;
       EvLog DevMode
         ("oauth adaptor runtime error on '/oauth'. Trace: "
          ++ "getProviderName error: you must select a provider")]
  ∧ EvEmitError StatusUnauthorized
    ∉ events (beginHandler Sample.cfg Sample.providers (λ c, c) Sample.bare).
Proof.
  split; [vm_compute; reflexivity|].
  assert (He : events (beginHandler Sample.cfg Sample.providers (λ c, c) Sample.bare)
               = [EvEmitError StatusNotFound;
                  EvLog DevMode
                    ("oauth adaptor runtime error on '/oauth'. Trace: "
                     ++ "getProviderName error: you must select a provider")])
    by (vm_compute; reflexivity).
  split; [exact He|]. rewrite He. intros Hin.
  apply elem_of_cons in Hin as [Hin|Hin]; [discriminate|].
  apply elem_of_cons in Hin as [Hin|Hin]; [discriminate|].
  by apply elem_of_nil in Hin.
Qed.

(** GetAuthURL on the sample request for github: the URL comes back and
    the session store, empty before, holds the marshalled session. *)
Example GetAuthURL_github_persists :
  (GetAuthURL Sample.cfg Sample.providers Sample.for_github).1
  = ("https://provider.test/authorize?state=state", None)
  ∧ session (GetAuthURL Sample.cfg Sample.providers Sample.for_github).2
    = {[ SessionValueKey := VString "state" ]}
  ∧ session Sample.for_github = ∅.
Proof. split; [|split]; vm_compute; reflexivity. Qed.

(** C7 on the sample configuration, which holds one entry. *)
Lemma GenerateProviders_each_once_witness :
  GenerateProviders Sample.cfg "http://localhost" ≠ []
  ∧ length (GenerateProviders Sample.cfg "http://localhost") = size (Credentials Sample.cfg)
  ∧ ∀ name key secret, Credentials Sample.cfg !! name = Some (key, secret) →
      newProvider name key secret "http://localhost"
      ∈ GenerateProviders Sample.cfg "http://localhost"
      ∧ length (filter (λ p, Name p = name)
                  (GenerateProviders Sample.cfg "http://localhost")) = 1%nat.
Proof.
  apply (GenerateProviders_each_once string Sample.lib Sample.cfg "http://localhost").
  - intros name key secret callback. reflexivity.
  - intros Hempty.
    assert (Hlk : Credentials Sample.cfg !! "github" = Some ("KEY", "SECRET"))
      by (vm_compute; reflexivity).
    rewrite Hempty in Hlk. by rewrite lookup_empty in Hlk.
Defined.

(** C8 on a configuration that generates no provider. *)
Lemma boot_disabled_witness :
  routes (framework (boot Sample.world)) = []
  ∧ errorHandlers (framework (boot Sample.world)) = []
  ∧ registry (boot Sample.world) = ∅
  ∧ adaptor (boot Sample.world) = adaptor Sample.world
  ∧ logged (framework (boot Sample.world)) = [].
Proof.
  assert (Hgen : GenerateProviders Sample.cfg_no_providers ("http://" ++ "localhost") = [])
    by (vm_compute; reflexivity).
  pose proof (boot_disabled string Sample.lib Sample.world
                (or_intror (or_intror (or_intror Hgen)))) as H.
  destruct H as (H1 & H2 & H3 & H4 & H5).
  split; [exact H1|]. split; [exact H2|]. split; [exact H3|].
  split; [exact H4|]. rewrite H5. vm_compute. reflexivity.
Defined.

(** * Further properties of the adaptor *)

(** ** The state handed to the provider *)

(** The state that begins a handshake is never empty: it is the [state]
    query parameter of the request when there is one, and the constant
    ["state"] otherwise. *)
Theorem setState_never_empty (ctx : Context) :
  setState ctx ≠ ""
  ∧ (GetState ctx ≠ "" → setState ctx = GetState ctx)
  ∧ (GetState ctx = "" → setState ctx = "state").
Proof.
  unfold setState, GetState.
  destruct (URLParam ctx "state") as [|c s] eqn:Hs; simpl.
  - split; [done|]. split; [done|]. done.
  - destruct (decide (0 < S (String.length s))%nat) as [_|Hn]; [|lia].
    split; [done|]. split; [done|]. done.
Qed.

Section Handshake.

Variable S : Type.
Variable lib : Goth S.

Implicit Types (cfg : Config) (ctx : Context) (providers : gmap string (Provider S)).

(** BeginAuthHandler answers with exactly one of a redirect and a 404, and
    returns an error exactly with the 404: on an error of GetAuthURL the
    context gets the 404 and nothing else, the session store included; on
    success it gets the redirect to the session's URL, after the marshalled
    session was stored under SessionValueKey. *)
Theorem BeginAuthHandler_redirect_or_404 cfg providers ctx :
  let r := BeginAuthHandler cfg providers ctx in
  r.1 = (GetAuthURL cfg providers ctx).1.2
  ∧ (∀ err, r.1 = Some err →
       r.2 = NotFound ctx
       ∧ session r.2 = session ctx
       ∧ events r.2 = (events ctx ++ [EvEmitError StatusNotFound])%list)
  ∧ (r.1 = None →
       ∃ sess url, SessGetAuthURL sess = (url, None)
         ∧ events r.2 = (events ctx ++ [EvRedirect url])%list
         ∧ session r.2 = <[SessionValueKey := VString (Marshal sess)]> (session ctx)
         ∧ values r.2 = values ctx).
Proof.
  intros r. subst r. unfold BeginAuthHandler.
  pose proof (GetAuthURL_failure_unchanged S lib cfg providers ctx) as Hfail.
  unfold GetAuthURL in *.
  destruct (GetProviderName cfg ctx) as [name [e|]]; simpl in *.
  { split; [done|]. split; [|done]. by intros err [= <-]. }
  destruct (goth.GetProvider providers name) as [provider|e]; simpl in *.
  2: { split; [done|]. split; [|done]. by intros err [= <-]. }
  destruct (BeginAuth provider (setState ctx)) as [sess [e|]]; simpl in *.
  { split; [done|]. split; [|done]. by intros err [= <-]. }
  destruct (SessGetAuthURL sess) as [url [e|]] eqn:Hurl; simpl in *.
  { split; [done|]. split; [|done]. by intros err [= <-]. }
  split; [done|]. split; [done|]. intros _. by exists sess, url.
Qed.

(** GetAuthURL writes nothing to the response or the log. *)
Lemma GetAuthURL_events cfg providers ctx :
  events (GetAuthURL cfg providers ctx).2 = events ctx.
Proof.
  unfold GetAuthURL.
  destruct (GetProviderName cfg ctx) as [name [e|]]; [done|].
  destruct (goth.GetProvider providers name) as [provider|e]; [|done].
  destruct (BeginAuth provider (setState ctx)) as [sess [e|]]; [done|].
  by destruct (SessGetAuthURL sess) as [url [e|]].
Qed.

(** The handler of the request-initiation route ends the chain: whatever
    handlers follow it on the route, they do not run.  What it adds to the
    response is a redirect, or a 404 and a log line, and never a 401. *)
Theorem beginHandler_ends_chain cfg providers ctx :
  (∀ next next' : Context → Context,
     beginHandler cfg providers next ctx = beginHandler cfg providers next' ctx)
  ∧ (∃ added,
       events (beginHandler cfg providers (λ c, c) ctx) = (events ctx ++ added)%list
       ∧ (EvEmitError StatusUnauthorized ∉ added)
       ∧ ((∃ url, added = [EvRedirect url])
          ∨ (∃ msg, added = [EvEmitError StatusNotFound; EvLog DevMode msg]))).
Proof.
  split; [done|].
  destruct ((GetAuthURL cfg providers ctx).1.2) as [err|] eqn:Herr.
  - rewrite (beginHandler_failure S lib _ _ (λ c, c) _ _ Herr).
    exists [EvEmitError StatusNotFound; EvLog DevMode (runtimeErrorMessage ctx err)].
    split; [simpl; by rewrite <- app_assoc|].
    split; [|right; by eexists].
    intros Hin. apply elem_of_cons in Hin as [Hin|Hin]; [discriminate|].
    apply elem_of_cons in Hin as [Hin|Hin]; [discriminate|].
    by apply elem_of_nil in Hin.
  - rewrite (beginHandler_success S lib _ _ (λ c, c) _ Herr).
    exists [EvRedirect (GetAuthURL cfg providers ctx).1.1].
    split; [simpl; by rewrite GetAuthURL_events|].
    split; [|left; by eexists].
    intros Hin. apply elem_of_cons in Hin as [Hin|Hin]; [discriminate|].
    by apply elem_of_nil in Hin.
Qed.

(** ** From the begun handshake to the callback *)

(** The steps of CompleteUserAuth once the provider is known and the
    session store has an entry. *)
Lemma CompleteUserAuth_with_session cfg providers ctx (name : string)
    (provider : Provider S) (v : Value) :
  GetProviderName cfg ctx = (name, None) →
  providers !! name = Some provider →
  SessionGet ctx SessionValueKey = Some v →
  CompleteUserAuth cfg providers ctx
  = match UnmarshalSession provider (SessionGetString ctx SessionValueKey) with
    | (_, Some err) => (zeroUser, Some err)
    | (sess, None) =>
      match Authorize sess provider (query ctx) with
      | (_, (_, Some err)) => (zeroUser, Some err)
      | (sess', (_, None)) => FetchUser provider sess'
      end
    end.
Proof.
  intros H1 H2 H3. unfold CompleteUserAuth.
  by rewrite H1, (GetProvider_registered S _ _ _ H2), H3.
Qed.

(** The session GetAuthURL stores is the one CompleteUserAuth reads back:
    after a successful GetAuthURL, a callback for the same provider that
    carries the resulting session store gets past the session check, and the
    provider is asked to unmarshal exactly the string that Marshal gave. *)
Theorem begin_then_complete cfg providers ctx (name : string)
    (provider : Provider S) (sess : S) (url : string) (callback : Context) :
  GetProviderName cfg ctx = (name, None) →
  providers !! name = Some provider →
  BeginAuth provider (setState ctx) = (sess, None) →
  SessGetAuthURL sess = (url, None) →
  GetProviderName cfg callback = (name, None) →
  session callback = session (GetAuthURL cfg providers ctx).2 →
  SessionGetString callback SessionValueKey = Marshal sess
  ∧ CompleteUserAuth cfg providers callback
    = match UnmarshalSession provider (Marshal sess) with
      | (_, Some err) => (zeroUser, Some err)
      | (sess1, None) =>
        match Authorize sess1 provider (query callback) with
        | (_, (_, Some err)) => (zeroUser, Some err)
        | (sess2, (_, None)) => FetchUser provider sess2
        end
      end.
Proof.
  intros Hn Hp Hb Hu Hcn Hs.
  rewrite (GetAuthURL_success S lib cfg providers ctx name provider sess url
             Hn (GetProvider_registered S _ _ _ Hp) Hb Hu) in Hs.
  simpl in Hs.
  assert (Hget : SessionGet callback SessionValueKey = Some (VString (Marshal sess))).
  { unfold SessionGet. rewrite Hs. apply lookup_insert_eq. }
  assert (Hstr : SessionGetString callback SessionValueKey = Marshal sess).
  { unfold SessionGetString. unfold SessionGet in Hget. by rewrite Hget. }
  split; [exact Hstr|].
  rewrite (CompleteUserAuth_with_session cfg providers callback name provider _ Hcn Hp Hget).
  by rewrite Hstr.
Qed.

(** CompleteUserAuth hands out a user or a nil error only at the end of the
    whole path: the name resolved, the provider registered, a session entry
    present, the session unmarshalled and authorized with the query of the
    request; the result is then what FetchUser returned. *)
Theorem CompleteUserAuth_success_path cfg providers ctx :
  (CompleteUserAuth cfg providers ctx).2 = None
  ∨ (CompleteUserAuth cfg providers ctx).1 ≠ zeroUser →
  ∃ name provider sess sess' token,
    GetProviderName cfg ctx = (name, None)
    ∧ providers !! name = Some provider
    ∧ is_Some (SessionGet ctx SessionValueKey)
    ∧ UnmarshalSession provider (SessionGetString ctx SessionValueKey) = (sess, None)
    ∧ Authorize sess provider (query ctx) = (sess', (token, None))
    ∧ FetchUser provider sess' = CompleteUserAuth cfg providers ctx.
Proof.
  unfold CompleteUserAuth.
  destruct (GetProviderName cfg ctx) as [name [e|]]; simpl;
    [intros [?|?]; done|].
  unfold goth.GetProvider.
  destruct (providers !! name) as [provider|] eqn:Hp; simpl;
    [|intros [?|?]; done].
  destruct (SessionGet ctx SessionValueKey) as [v|] eqn:Hv; simpl;
    [|intros [?|?]; done].
  destruct (UnmarshalSession provider (SessionGetString ctx SessionValueKey))
    as [sess [e|]] eqn:Hun; simpl; [intros [?|?]; done|].
  destruct (Authorize sess provider (query ctx)) as [sess' [token [e|]]] eqn:Ha;
    simpl; [intros [?|?]; done|].
  intros _. exists name, provider, sess, sess', token.
  repeat (split; [done|]). done.
Qed.

(** A session entry that is not a string counts as the empty blob: the
    request passes the session check and the provider is asked to unmarshal
    [""], as if the empty string had been stored. *)
Theorem CompleteUserAuth_non_string_session cfg providers ctx (v : Value) :
  SessionGet ctx SessionValueKey = Some v →
  (∀ s, v ≠ VString s) →
  CompleteUserAuth cfg providers ctx
  = CompleteUserAuth cfg providers (SessionSet ctx SessionValueKey (VString "")).
Proof.
  intros Hv Hns. unfold CompleteUserAuth.
  change (GetProviderName cfg (SessionSet ctx SessionValueKey (VString "")))
    with (GetProviderName cfg ctx).
  destruct (GetProviderName cfg ctx) as [name [e|]]; [done|].
  destruct (goth.GetProvider providers name) as [provider|e]; [|done].
  rewrite Hv. unfold SessionGet, SessionGetString in *. simpl.
  rewrite lookup_insert_eq, Hv.
  destruct v as [s| |]; [by destruct (Hns s)|done|done].
Qed.

End Handshake.

(** ** What boot leaves behind *)

Section Booting.

Variable S : Type.
Variable lib : Goth S.

Implicit Types (w : World S) (providers : gmap string (Provider S)).

(** Names that are not among the providers passed to UseProviders keep
    what the registry had for them. *)
Lemma UseProviders_lookup_other providers (l : list (Provider S)) (name : string) :
  name ∉ Name <$> l →
  goth.UseProviders providers l !! name = providers !! name.
Proof.
  revert providers. induction l as [|a l IH]; intros providers Hn; [done|].
  rewrite fmap_cons, not_elem_of_cons in Hn. destruct Hn as [Hne Hn].
  simpl. rewrite (IH _ Hn). by apply lookup_insert_ne.
Qed.

(** Every provider passed to UseProviders makes its name resolve, to one of
    the providers passed that bears this name. *)
Lemma UseProviders_lookup_used providers (l : list (Provider S)) (p : Provider S) :
  p ∈ l →
  ∃ q, goth.UseProviders providers l !! Name p = Some q ∧ Name q = Name p ∧ q ∈ l.
Proof.
  revert providers p. induction l as [|a l IH]; intros providers p Hin.
  { by apply elem_of_nil in Hin. }
  simpl. destruct (decide (Name p ∈ Name <$> l)) as [Hlater|Hnot].
  - apply list_elem_of_fmap in Hlater as (p' & Heq & Hp').
    destruct (IH (<[Name a := a]> providers) p' Hp') as (q & Hq & Hname & Hql).
    exists q. rewrite Heq. split; [done|]. split; [done|]. by apply list_elem_of_further.
  - rewrite (UseProviders_lookup_other _ _ _ Hnot).
    apply elem_of_cons in Hin as [->|Hin].
    + exists a. rewrite lookup_insert_eq. split; [done|]. split; [done|].
      apply list_elem_of_here.
    + destruct Hnot. by apply list_elem_of_fmap_2.
Qed.

(** The state after boot on a configuration that enables the adaptor. *)
Lemma boot_enabled_world w :
  let cfg := Cfg (adaptor w) in
  let s := framework w in
  RequestPath cfg ≠ "" → CallbackRelativePath cfg ≠ "" → RequestPathParam cfg ≠ "" →
  GenerateProviders cfg (VScheme s ++ VHost s) ≠ [] →
  boot w
  = let handlers := authMiddleware cfg :: successHandlers (adaptor w) in
    let s2 := FGet S (RequestPath cfg ++ CallbackRelativePath cfg) "" handlers
                (FGet S (RequestPath cfg) (RouteName cfg) [beginHandler cfg] s) in
    mkWorld (mkOauth cfg handlers (failHandler (adaptor w)) true)
            (match failHandler (adaptor w) with
             | Some h => OnError S StatusUnauthorized h s2
             | None => s2
             end)
            (goth.UseProviders (registry w)
               (GenerateProviders cfg (VScheme s ++ VHost s))).
Proof.
  intros cfg s H1 H2 H3 Hgen. subst cfg s. unfold boot.
  destruct (decide _) as [[?|[?|?]]|_]; [done..|].
  destruct (GenerateProviders _ _) as [|p ps] eqn:Hg; [done|].
  by destruct (decide (0 < length (p :: ps))%nat) as [_|Hn]; [|simpl in Hn; lia].
Qed.

(** After boot on a configuration that enables the adaptor, the callback
    route is the last route registered; its chain is the auth middleware
    followed by the success handlers the adaptor held, so that a request
    failing authentication ends in the 401 and the log line with none of
    them run, and any other request runs them on the context that holds the
    user.  The adaptor keeps that chain and its station is set; nothing is
    logged at boot. *)
Theorem boot_callback_chain w :
  let cfg := Cfg (adaptor w) in
  let s := framework w in
  RequestPath cfg ≠ "" → CallbackRelativePath cfg ≠ "" → RequestPathParam cfg ≠ "" →
  GenerateProviders cfg (VScheme s ++ VHost s) ≠ [] →
  adaptor (boot w)
  = mkOauth cfg (authMiddleware cfg :: successHandlers (adaptor w))
            (failHandler (adaptor w)) true
  ∧ logged (framework (boot w)) = logged s
  ∧ ∃ r, last (routes (framework (boot w))) = Some r
      ∧ routePath r = RequestPath cfg ++ CallbackRelativePath cfg
      ∧ ∀ providers ctx,
          run_chain providers (routeHandlers r) ctx
          = match CompleteUserAuth cfg providers ctx with
            | (_, Some err) =>
              Log DevMode (runtimeErrorMessage ctx err)
                  (EmitError StatusUnauthorized ctx)
            | (user, None) =>
              run_chain providers (successHandlers (adaptor w))
                        (Set_ ctx (ContextKey cfg) (VUser user))
            end.
Proof.
  intros cfg s H1 H2 H3 Hgen.
  rewrite (boot_enabled_world w H1 H2 H3 Hgen). fold cfg. fold s. simpl.
  split; [done|].
  split; [by destruct (failHandler (adaptor w))|].
  exists (mkRoute "GET" (RequestPath cfg ++ CallbackRelativePath cfg) ""
            (authMiddleware cfg :: successHandlers (adaptor w))).
  split.
  { destruct (failHandler (adaptor w)); simpl; by rewrite last_snoc. }
  split; [done|]. intros providers ctx. simpl. unfold authMiddleware.
  by destruct (CompleteUserAuth cfg providers ctx) as [user [err|]].
Qed.

(** After boot on a configuration that enables the adaptor, the name of
    every generated provider resolves in the registry, to a generated
    provider of that name, and the names boot did not generate resolve as
    they did before. *)
Theorem boot_registers_providers w :
  let cfg := Cfg (adaptor w) in
  let s := framework w in
  let generated := GenerateProviders cfg (VScheme s ++ VHost s) in
  RequestPath cfg ≠ "" → CallbackRelativePath cfg ≠ "" → RequestPathParam cfg ≠ "" →
  generated ≠ [] →
  (∀ p, p ∈ generated →
     ∃ q, goth.GetProvider (registry (boot w)) (Name p) = inl q
          ∧ Name q = Name p ∧ q ∈ generated)
  ∧ (∀ name, name ∉ Name <$> generated →
       goth.GetProvider (registry (boot w)) name
       = goth.GetProvider (registry w) name).
Proof.
  intros cfg s generated H1 H2 H3 Hgen.
  rewrite (boot_enabled_world w H1 H2 H3 Hgen). fold cfg. fold s. fold generated.
  simpl. split.
  - intros p Hp.
    destruct (UseProviders_lookup_used (registry w) generated p Hp)
      as (q & Hq & Hname & Hin).
    exists q. unfold goth.GetProvider. by rewrite Hq.
  - intros name Hn. unfold goth.GetProvider.
    by rewrite (UseProviders_lookup_other _ _ _ Hn).
Qed.

(** Handlers given to Success in several calls before boot run on the
    callback route in the order they were given, after the auth middleware;
    of the handlers given to Fail the last one counts, and it is registered
    for 401 unless it is nil. *)
Theorem Success_Fail_then_boot w (a b : list (HandlerFunc S))
    (h1 h2 : option (HandlerFunc S)) :
  let p := adaptor w in
  let cfg := Cfg p in
  let s := framework w in
  let w' := with_adaptor (Fail (Success (Fail (Success p a) h1) b) h2) w in
  RequestPath cfg ≠ "" → CallbackRelativePath cfg ≠ "" → RequestPathParam cfg ≠ "" →
  GenerateProviders cfg (VScheme s ++ VHost s) ≠ [] →
  successHandlers (adaptor (boot w'))
  = (authMiddleware cfg :: successHandlers p ++ a ++ b)%list
  ∧ (∃ r, last (routes (framework (boot w'))) = Some r
       ∧ routeHandlers r = (authMiddleware cfg :: successHandlers p ++ a ++ b)%list)
  ∧ errorHandlers (framework (boot w'))
    = match h2 with
      | Some h => (errorHandlers s ++ [(StatusUnauthorized, h)])%list
      | None => errorHandlers s
      end.
Proof.
  intros p cfg s w' H1 H2 H3 Hgen.
  rewrite (boot_enabled_world w' H1 H2 H3 Hgen).
  subst w'. simpl. fold p. fold cfg. fold s.
  rewrite <- app_assoc.
  split; [done|]. split.
  - exists (mkRoute "GET" (RequestPath cfg ++ CallbackRelativePath cfg) ""
              (authMiddleware cfg :: successHandlers p ++ a ++ b)%list).
    split; [|done]. destruct h2; simpl; by rewrite last_snoc.
  - by destruct h2.
Qed.

End Booting.

(** ** The Django adaptor's configuration *)

Section DjangoConfig.

Variable F : Type.

Implicit Types (d : view.DjangoAdaptor F).

(** Assigning distinct keys one after the other gives the map of the
    entries, laid over the destination. *)
Lemma assign_all_union {V : Type} (entries : list (string * V)) (dst : gmap string V) :
  NoDup entries.*1 →
  view.assign_all entries dst = list_to_map entries ∪ dst.
Proof.
  revert dst. induction entries as [|[k v] l IH]; intros dst Hnd.
  { simpl. by rewrite (left_id_L ∅ (∪)). }
  rewrite fmap_cons in Hnd. apply NoDup_cons in Hnd as [Hk Hnd].
  unfold view.assign_all in *. simpl. rewrite (IH _ Hnd).
  apply map_eq. intros i.
  rewrite !lookup_union. destruct (decide (i = k)) as [->|Hne].
  - rewrite !lookup_insert_eq.
    rewrite (not_elem_of_list_to_map_1 l k Hk). by destruct (dst !! k).
  - by rewrite !lookup_insert_ne.
Qed.

(** The loop over a map gives the same result in whatever order it visits
    the entries. *)
Lemma assign_all_any_order {V : Type} (m dst : gmap string V)
    (order : list (string * V)) :
  order ≡ₚ map_to_list m →
  view.assign_all order dst = m ∪ dst.
Proof.
  intros Hperm.
  assert (Hnd : NoDup order.*1).
  { rewrite Hperm. apply NoDup_fst_map_to_list. }
  rewrite (assign_all_union _ _ Hnd).
  by rewrite (list_to_map_proper _ _ Hnd Hperm), list_to_map_to_list.
Qed.

Lemma Filters_unfold (filtersMap : gmap string F) d :
  view.Filters filtersMap d
  = view.mkDjangoAdaptor (view.directory d) (view.extension d)
      (view.mkEngineConfig
         (filtersMap ∪ view.Config_Filters (view.engine d))
         (view.Config_Globals (view.engine d))
         (view.Config_DebugTemplates (view.engine d))).
Proof.
  unfold view.Filters. destruct (decide (size filtersMap = 0%nat)) as [Hz|_].
  - apply map_size_empty_iff in Hz. subst filtersMap.
    rewrite (left_id_L ∅ (∪)). by destruct d as [? ? []].
  - by rewrite (assign_all_any_order filtersMap).
Qed.

Lemma Globals_unfold (globalsMap : gmap string Value) d :
  view.Globals globalsMap d
  = view.mkDjangoAdaptor (view.directory d) (view.extension d)
      (view.mkEngineConfig
         (view.Config_Filters (view.engine d))
         (globalsMap ∪ view.Config_Globals (view.engine d))
         (view.Config_DebugTemplates (view.engine d))).
Proof.
  unfold view.Globals. destruct (decide (size globalsMap = 0%nat)) as [Hz|_].
  - apply map_size_empty_iff in Hz. subst globalsMap.
    rewrite (left_id_L ∅ (∪)). by destruct d as [? ? []].
  - by rewrite (assign_all_any_order globalsMap).
Qed.

(** Filters registers every filter it is given under its name, replacing a
    filter of the same name and keeping the others; an empty map changes
    nothing; globals, the debug switch and the template location are left
    alone.  The order in which the loop visits the map does not matter. *)
Theorem Filters_registers (filtersMap : gmap string F) d :
  let d' := view.Filters filtersMap d in
  let old := view.Config_Filters (view.engine d) in
  view.Config_Filters (view.engine d') = filtersMap ∪ old
  ∧ (∀ name f, filtersMap !! name = Some f →
       view.Config_Filters (view.engine d') !! name = Some f)
  ∧ (∀ name, filtersMap !! name = None →
       view.Config_Filters (view.engine d') !! name = old !! name)
  ∧ (filtersMap = ∅ → d' = d)
  ∧ view.Config_Globals (view.engine d') = view.Config_Globals (view.engine d)
  ∧ view.Config_DebugTemplates (view.engine d')
    = view.Config_DebugTemplates (view.engine d)
  ∧ view.directory d' = view.directory d ∧ view.extension d' = view.extension d
  ∧ (∀ order, order ≡ₚ map_to_list filtersMap →
       view.assign_all order old = view.Config_Filters (view.engine d')).
Proof.
  intros d' old. subst d' old. rewrite Filters_unfold. simpl.
  split; [done|].
  split; [intros name f Hf; by apply lookup_union_Some_l|].
  split; [intros name Hn; by apply lookup_union_r|].
  split.
  { intros ->. rewrite (left_id_L ∅ (∪)). by destruct d as [? ? []]. }
  do 4 (split; [done|]).
  intros order Hperm. by apply assign_all_any_order.
Qed.

(** Globals does the same for the shared context fields, and leaves the
    filters and the debug switch alone. *)
Theorem Globals_registers (globalsMap : gmap string Value) d :
  let d' := view.Globals globalsMap d in
  let old := view.Config_Globals (view.engine d) in
  view.Config_Globals (view.engine d') = globalsMap ∪ old
  ∧ (∀ name v, globalsMap !! name = Some v →
       view.Config_Globals (view.engine d') !! name = Some v)
  ∧ (∀ name, globalsMap !! name = None →
       view.Config_Globals (view.engine d') !! name = old !! name)
  ∧ (globalsMap = ∅ → d' = d)
  ∧ view.Config_Filters (view.engine d') = view.Config_Filters (view.engine d)
  ∧ view.Config_DebugTemplates (view.engine d')
    = view.Config_DebugTemplates (view.engine d)
  ∧ (∀ order, order ≡ₚ map_to_list globalsMap →
       view.assign_all order old = view.Config_Globals (view.engine d')).
Proof.
  intros d' old. subst d' old. rewrite Globals_unfold. simpl.
  split; [done|].
  split; [intros name v Hv; by apply lookup_union_Some_l|].
  split; [intros name Hn; by apply lookup_union_r|].
  split.
  { intros ->. rewrite (left_id_L ∅ (∪)). by destruct d as [? ? []]. }
  do 2 (split; [done|]).
  intros order Hperm. by apply assign_all_any_order.
Qed.

(** Two calls of Filters amount to one call with the second map laid over
    the first, so a name given twice keeps the later filter, and a call
    repeated changes nothing more. *)
Theorem Filters_accumulate (m1 m2 : gmap string F) d :
  view.Filters m2 (view.Filters m1 d) = view.Filters (m2 ∪ m1) d
  ∧ view.Filters m1 (view.Filters m1 d) = view.Filters m1 d.
Proof.
  rewrite !Filters_unfold. simpl.
  split; [by rewrite (assoc_L (∪))|].
  by rewrite (assoc_L (∪)), (idemp_L (∪)).
Qed.

(** The three settings are independent: Filters, Globals and DebugTemplates
    can be chained in any order with the same result, and of two calls of
    DebugTemplates the later one decides. *)
Theorem settings_commute (filtersMap : gmap string F)
    (globalsMap : gmap string Value) (debug debug' : bool) d :
  view.Filters filtersMap (view.Globals globalsMap d)
  = view.Globals globalsMap (view.Filters filtersMap d)
  ∧ view.DebugTemplates debug (view.Filters filtersMap d)
    = view.Filters filtersMap (view.DebugTemplates debug d)
  ∧ view.DebugTemplates debug (view.Globals globalsMap d)
    = view.Globals globalsMap (view.DebugTemplates debug d)
  ∧ view.DebugTemplates debug' (view.DebugTemplates debug d)
    = view.DebugTemplates debug' d.
Proof.
  rewrite !Filters_unfold, !Globals_unfold. unfold view.DebugTemplates. simpl.
  done.
Qed.

End DjangoConfig.

(** ** The further properties on the sample instance *)

(** A handshake for github begun and completed. *)
Lemma begin_then_complete_witness :
  SessionGetString Scenario.callback SessionValueKey = Marshal "state"
  ∧ CompleteUserAuth Sample.cfg Sample.providers Scenario.callback
    = match UnmarshalSession Sample.github (Marshal "state") with
      | (_, Some err) => (zeroUser, Some err)
      | (sess1, None) =>
        match Authorize sess1 Sample.github (query Scenario.callback) with
        | (_, (_, Some err)) => (zeroUser, Some err)
        | (sess2, (_, None)) => FetchUser Sample.github sess2
        end
      end.
Proof.
  apply (begin_then_complete string Sample.lib Sample.cfg Sample.providers
           Sample.for_github "github" Sample.github "state"
           "https://provider.test/authorize?state=state" Scenario.callback);
    vm_compute; reflexivity.
Defined.

(** The completed handshake went the whole path. *)
Lemma CompleteUserAuth_success_path_witness :
  ∃ name provider sess sess' token,
    GetProviderName Sample.cfg Scenario.callback = (name, None)
    ∧ Sample.providers !! name = Some provider
    ∧ is_Some (SessionGet Scenario.callback SessionValueKey)
    ∧ UnmarshalSession provider (SessionGetString Scenario.callback SessionValueKey)
      = (sess, None)
    ∧ Authorize sess provider (query Scenario.callback) = (sess', (token, None))
    ∧ FetchUser provider sess'
      = CompleteUserAuth Sample.cfg Sample.providers Scenario.callback.
Proof.
  apply (CompleteUserAuth_success_path string Sample.lib Sample.cfg
           Sample.providers Scenario.callback).
  left. vm_compute. reflexivity.
Defined.

(** A number in place of the session blob. *)
Lemma CompleteUserAuth_non_string_session_witness :
  CompleteUserAuth Sample.cfg Sample.providers Scenario.callback_odd_session
  = CompleteUserAuth Sample.cfg Sample.providers
      (SessionSet Scenario.callback_odd_session SessionValueKey (VString "")).
Proof.
  apply (CompleteUserAuth_non_string_session string Sample.lib Sample.cfg
           Sample.providers Scenario.callback_odd_session (VInt 7)).
  - vm_compute. reflexivity.
  - intros s. discriminate.
Defined.

Lemma Scenario_world_enabled :
  RequestPath Sample.cfg ≠ "" ∧ CallbackRelativePath Sample.cfg ≠ ""
  ∧ RequestPathParam Sample.cfg ≠ ""
  ∧ GenerateProviders Sample.cfg ("http://" ++ "localhost") ≠ [].
Proof.
  split; [vm_compute; discriminate|]. split; [vm_compute; discriminate|].
  split; [vm_compute; discriminate|].
  intros Hnil. apply (f_equal length) in Hnil.
  unfold GenerateProviders in Hnil. rewrite length_fmap, length_map_to_list in Hnil.
  vm_compute in Hnil. discriminate.
Defined.

(** boot on the sample configuration, which generates the github
    provider. *)
Lemma boot_enabled_witness :
  routes (framework (boot Scenario.world))
  = [mkRoute "GET" "/oauth/{provider}" "oauth" [beginHandler Sample.cfg];
     mkRoute "GET" ("/oauth/{provider}" ++ "/callback") ""
             [authMiddleware Sample.cfg]]
  ∧ registry (boot Scenario.world)
    = goth.UseProviders ∅ (GenerateProviders Sample.cfg ("http://" ++ "localhost"))
  ∧ errorHandlers (framework (boot Scenario.world)) = [].
Proof.
  destruct Scenario_world_enabled as (H1 & H2 & H3 & H4).
  exact (boot_enabled string Sample.lib Scenario.world H1 H2 H3 H4).
Defined.

Lemma boot_callback_chain_witness :
  adaptor (boot Scenario.world)
  = mkOauth Sample.cfg [authMiddleware Sample.cfg] None true
  ∧ logged (framework (boot Scenario.world)) = []
  ∧ ∃ r, last (routes (framework (boot Scenario.world))) = Some r
      ∧ routePath r = "/oauth/{provider}" ++ "/callback"
      ∧ ∀ providers ctx,
          run_chain providers (routeHandlers r) ctx
          = match CompleteUserAuth Sample.cfg providers ctx with
            | (_, Some err) =>
              Log DevMode (runtimeErrorMessage ctx err)
                  (EmitError StatusUnauthorized ctx)
            | (user, None) =>
              run_chain providers [] (Set_ ctx "user" (VUser user))
            end.
Proof.
  destruct Scenario_world_enabled as (H1 & H2 & H3 & H4).
  exact (boot_callback_chain string Sample.lib Scenario.world H1 H2 H3 H4).
Defined.

Lemma boot_registers_providers_witness :
  (∀ p, p ∈ GenerateProviders Sample.cfg ("http://" ++ "localhost") →
     ∃ q, goth.GetProvider (registry (boot Scenario.world)) (Name p) = inl q
          ∧ Name q = Name p
          ∧ q ∈ GenerateProviders Sample.cfg ("http://" ++ "localhost"))
  ∧ (∀ name, name ∉ Name <$> GenerateProviders Sample.cfg ("http://" ++ "localhost") →
       goth.GetProvider (registry (boot Scenario.world)) name
       = goth.GetProvider (∅ : gmap string (Provider string)) name).
Proof.
  destruct Scenario_world_enabled as (H1 & H2 & H3 & H4).
  exact (boot_registers_providers string Sample.lib Scenario.world H1 H2 H3 H4).
Defined.

(** Two handlers given to Success in two calls, and a nil handler given to
    Fail after a real one. *)
Lemma Success_Fail_then_boot_witness :
  successHandlers (adaptor (boot world_with_handlers))
  = [authMiddleware Sample.cfg; Scenario.mark "first"; Scenario.mark "second"]
  ∧ (∃ r, last (routes (framework (boot world_with_handlers))) = Some r
       ∧ routeHandlers r
         = [authMiddleware Sample.cfg; Scenario.mark "first"; Scenario.mark "second"])
  ∧ errorHandlers (framework (boot world_with_handlers)) = [].
Proof.
  destruct Scenario_world_enabled as (H1 & H2 & H3 & H4).
  exact (Success_Fail_then_boot string Sample.lib Scenario.world
           [Scenario.mark "first"] [Scenario.mark "second"]
           (Some (Scenario.mark "failed")) None H1 H2 H3 H4).
Defined.

(** ** The example's index of providers *)

#[local] Instance string_le_total : Total example.string_le.
Proof. intros a b. apply String.leb_total. Qed.

(** The provider list the example renders is sorted, names no provider
    twice, and holds exactly the keys of the label map, among them the
    three configured names; the label of the Gplus name is always "Gplus",
    since it is written last.  This holds for whatever order the keys were
    collected in. *)
Theorem providerIndex_sorted_keys (githubName facebookName gplusName : string) :
  let index := example.providerIndex githubName facebookName gplusName in
  Sorted example.string_le (example.Providers index)
  ∧ NoDup (example.Providers index)
  ∧ (∀ name, name ∈ example.Providers index
             ↔ is_Some (example.ProvidersMap index !! name))
  ∧ (∀ name, name ∈ example.Providers index
             ↔ name = githubName ∨ name = facebookName ∨ name = gplusName)
  ∧ example.ProvidersMap index !! gplusName = Some "Gplus"
  ∧ (length (example.Providers index) ≤ 3)%nat
  ∧ (∀ order, order ≡ₚ (map_to_list (example.ProvidersMap index)).*1 →
       example.sortStrings order ≡ₚ example.Providers index
       ∧ Sorted example.string_le (example.sortStrings order)).
Proof.
  intros index. subst index. unfold example.providerIndex, example.sortStrings. simpl.
  set (m := example.labels githubName facebookName gplusName).
  assert (Hperm : merge_sort example.string_le (map_to_list m).*1 ≡ₚ (map_to_list m).*1)
    by apply merge_sort_Permutation.
  assert (Hkeys : ∀ name, name ∈ merge_sort example.string_le (map_to_list m).*1
                          ↔ is_Some (m !! name)).
  { intros name. rewrite Hperm. rewrite list_elem_of_fmap. split.
    - intros ([k v] & -> & Hin). apply elem_of_map_to_list in Hin. by eexists.
    - intros [v Hv]. exists (name, v). split; [done|]. by apply elem_of_map_to_list. }
  split; [apply Sorted_merge_sort; apply _|].
  split; [rewrite Hperm; apply NoDup_fst_map_to_list|].
  split; [exact Hkeys|].
  split.
  { intros name. rewrite Hkeys. subst m. unfold example.labels.
    rewrite !lookup_insert_is_Some, lookup_empty. split.
    - intros [H|[_ [H|[_ [H|[_ H] ] ] ] ] ]; [subst; auto..|].
      by apply is_Some_None in H.
    - intros Hname.
      destruct (decide (gplusName = name)) as [|Hg]; [by left|right; split; [done|]].
      destruct (decide (facebookName = name)) as [|Hf]; [by left|right; split; [done|]].
      destruct Hname as [-> | [-> | ->] ]; [by left|done|done]. }
  split; [subst m; apply lookup_insert_eq|].
  split.
  { rewrite Hperm, length_fmap, length_map_to_list. subst m. unfold example.labels.
    assert (Hle : ∀ (k v : string) (m0 : gmap string string),
                    (size (<[k := v]> m0) ≤ S (size m0))%nat).
    { intros k v m0. rewrite map_size_insert. destruct (m0 !! k); simpl; lia. }
    etrans; [apply Hle|]. apply le_n_S.
    etrans; [apply Hle|]. apply le_n_S.
    etrans; [apply Hle|]. by rewrite map_size_empty. }
  intros order Ho. split.
  - by rewrite merge_sort_Permutation, Hperm, Ho.
  - apply Sorted_merge_sort; apply _.
Qed.
